(** * espm: packaging metadata and the data-generation notebook

    The repository excerpt consists of [pyproject.toml] and the notebook
    [notebooks/generate_data.ipynb].  The metadata is embedded as the TOML
    document it denotes, together with the reading of requirement strings
    that installers apply to it.  The notebook is embedded cell by cell as a
    program in a small state-and-trace monad over Python values: every
    import, binding, subscript and call the cells execute is recorded, so
    that statements about "the calls the notebook makes" are statements
    about the trace of running it. *)

From Corelib Require PrimFloat.
From Stdlib Require Import ZArith QArith String Ascii List Lia Bool DecimalString.
From stdpp Require Import gmap strings.
Import ListNotations.
Open Scope string_scope.
Open Scope list_scope.
Set Warnings "-register-all,-inexact-float".

(** ** Association lists and strings *)

Module Common.

(** First value bound to a key. *)
Fixpoint assoc {A : Type} (k : string) (l : list (string * A)) : option A :=
  match l with
  | [] => None
  | (k', v) :: r => if String.eqb k k' then Some v else assoc k r
  end.

(** The longest prefix of characters satisfying [p], and the rest. *)
Fixpoint span (p : ascii -> bool) (s : string) : string * string :=
  match s with
  | EmptyString => (EmptyString, EmptyString)
  | String c r =>
      if p c then let '(a, b) := span p r in (String c a, b)
      else (EmptyString, s)
  end.

(** The string without its first [n] characters. *)
Fixpoint drop (n : nat) (s : string) : string :=
  match n, s with
  | O, _ => s
  | S _, EmptyString => EmptyString
  | S n', String _ r => drop n' r
  end.

(** Every character satisfies [p]. *)
Fixpoint all_chars (p : ascii -> bool) (s : string) : bool :=
  match s with
  | EmptyString => true
  | String c r => p c && all_chars p r
  end.

(** [s.endswith(suffix)] *)
Definition ends_with (suffix s : string) : bool :=
  Nat.leb (String.length suffix) (String.length s)
  && String.eqb (drop (String.length s - String.length suffix) s) suffix.

End Common.

(** ** pyproject.toml *)

Module Toml.
Import Common.

(** The file only uses strings and arrays of strings as values. *)
Inductive value : Type :=
| TStr (s : string)
| TArr (items : list string).

(** A table is its header path and its key/value pairs in file order. *)
Record table : Type := Table {
  header : list string;
  pairs : list (string * value)
}.

Definition document : Type := list table.

Definition pyproject : document := [
  Table ["build-system"] [
    ("requires", TArr ["setuptools>=64"; "setuptools_scm>=8"; "wheel"]);
    ("build-backend", TStr "setuptools.build_meta")
  ];
  Table ["tool"; "setuptools"] [
    ("packages", TArr ["espm"; "espm.datasets"; "espm.estimators";
                       "espm.models"; "espm.tables"; "espm.tests";
                       "espm.weights"])
  ];
  Table ["project"] [
    ("name", TStr "espm");
    ("version", TStr "1.1.3");
    ("description", TStr "Electron SPectro-Microscopy Python Library");
    ("requires-python", TStr ">=3.8");
    ("readme", TStr "README.rst");
    ("keywords", TArr [
       "python";
       "data analysis";
       "microscopy";
       "electron microscopy";
       "energy-dispersive X-ray spectroscopy";
       "X-ray energy-dispersive spectroscopy";
       "EDS";
       "EDX";
       "STEM"]);
    ("classifiers", TArr [
       "Development Status :: 5 - Production/Stable";
       "Intended Audience :: Science/Research";
       "Intended Audience :: End Users/Desktop";
       "Intended Audience :: Developers"; "Natural Language :: English";
       "License :: OSI Approved :: GNU General Public License v3 (GPLv3)";
       "Operating System :: MacOS :: MacOS X";
       "Operating System :: POSIX :: Linux"; "Programming Language :: C";
       "Programming Language :: Python :: 3.10";
       "Programming Language :: Python :: 3.9";
       "Programming Language :: Python :: 3.8";
       "Topic :: Scientific/Engineering :: Mathematics";
       "Topic :: Scientific/Engineering"]);
    ("dependencies", TArr [
       "exspy==0.3.1";
       "hyperspy==2.2.0";
       "hyperspy-gui-ipywidgets==2.0.3";
       "hyperspy-gui-traitsui==2.0.1";
       "intervaltree==3.1.0";
       "tqdm==4.67.0";
       "prettytable==3.12.0";
       "scikit-learn";
       "pyqt5==5.15.10";
       "traits==7.0.2"])
  ];
  Table ["project"; "entry-points"; "hyperspy.extensions"] [
    ("espm", TStr "espm")
  ];
  Table ["project"; "license"] [
    ("file", TStr "Licence.txt")
  ];
  Table ["project"; "optional-dependencies"] [
    ("dev", TArr [
       "numpydoc";
       "flake8";
       "sphinx";
       "setuptools";
       "jupyterlab";
       "wheel";
       "sphinxcontrib-bibtex";
       "memory_profiler";
       "sphinx-rtd-theme";
       "sphinx-copybutton";
       "sphinx-gallery";
       "nbsphinx";
       "pandoc";
       "pytest"])
  ];
  Table ["project"; "urls"] [
    ("Homepage", TStr "https://espm.readthedocs.io/en/latest/");
    ("Bug Reports", TStr "https://github.com/adriente/espm/issues");
    ("Source", TStr "https://github.com/adriente/espm")
  ]
].

(** *** Lookups *)

Definition path_eqb (p q : list string) : bool :=
  bool_decide (p = q).

Definition find_table (doc : document) (p : list string) : option table :=
  find (fun t => path_eqb (header t) p) doc.

Definition lookup (doc : document) (p : list string) (k : string) : option value :=
  match find_table doc p with
  | Some t => assoc k (pairs t)
  | None => None
  end.

Definition strings_of (o : option value) : list string :=
  match o with
  | Some (TArr l) => l
  | Some (TStr _) | None => []
  end.

Definition string_of (o : option value) : option string :=
  match o with
  | Some (TStr s) => Some s
  | Some (TArr _) | None => None
  end.

(** The entries the claims read. *)
Definition build_requires (doc : document) : list string :=
  strings_of (lookup doc ["build-system"] "requires").

Definition build_backend (doc : document) : option string :=
  string_of (lookup doc ["build-system"] "build-backend").

Definition packages (doc : document) : list string :=
  strings_of (lookup doc ["tool"; "setuptools"] "packages").

Definition dependencies (doc : document) : list string :=
  strings_of (lookup doc ["project"] "dependencies").

(** Entry points: every table [project.entry-points.<group>] registers its
    string-valued keys in that group. *)
Record entry_point : Type := EntryPoint {
  ep_group : string;
  ep_name : string;
  ep_target : string
}.

Definition table_entry_points (t : table) : list entry_point :=
  match header t with
  | ["project"; "entry-points"; g] =>
      flat_map (fun '(k, v) =>
                  match v with
                  | TStr s => [EntryPoint g k s]
                  | TArr _ => []
                  end) (pairs t)
  | _ => []
  end.

Definition entry_points (doc : document) : list entry_point :=
  flat_map table_entry_points doc.

(** *** Requirement strings

    A dependency is a distribution name followed by an optional version
    specifier: a comparison operator and a version. *)

Definition in_range (lo hi : nat) (c : ascii) : bool :=
  Nat.leb lo (nat_of_ascii c) && Nat.leb (nat_of_ascii c) hi.

Definition is_digit (c : ascii) : bool := in_range 48 57 c.

Definition is_name_char (c : ascii) : bool :=
  is_digit c || in_range 65 90 c || in_range 97 122 c
  || Ascii.eqb c "-" || Ascii.eqb c "_" || Ascii.eqb c ".".

(** Longer operators first, so that [==] is not read as a prefix of [===]
    and [<] not as one of [<=]. *)
Definition operators : list string :=
  ["==="; "=="; "~="; "!="; "<="; ">="; "<"; ">"].

Definition split_operator (s : string) : option (string * string) :=
  match find (fun op => String.prefix op s) operators with
  | Some op => Some (op, drop (String.length op) s)
  | None => None
  end.

Record requirement : Type := Requirement {
  req_name : string;
  req_spec : option (string * string)
}.

Definition parse_requirement (s : string) : option requirement :=
  let '(n, rest) := span is_name_char s in
  match n, rest with
  | EmptyString, _ => None
  | _, EmptyString => Some (Requirement n None)
  | _, _ =>
      match split_operator rest with
      | Some spec => Some (Requirement n (Some spec))
      | None => None
      end
  end.




(** A package of the distribution: [espm] itself or a dotted subpackage. *)
Definition is_espm_package (p : string) : bool :=
  String.eqb p "espm" || String.prefix "espm." p.

End Toml.

(** ** Python values and the execution monad *)

Module Py.
Import Common.

(** [pathlib] paths on a POSIX system: an anchor and the components. *)
Record path : Type := Path { absolute : bool; parts : list string }.

Inductive binop : Type := Add | Mul | TrueDiv.

(** Python values.  Dictionaries keep their items in insertion order.
    A float is the exact rational that its decimal numeral in the source
    denotes; no binary64 rounding is modelled and float arithmetic is not
    evaluated.  Objects of the third-party libraries are symbolic:
    [VObj n] is the object returned by the call recorded at position [n]
    of the trace,
    [VNdarray n shape] an array returned by that call, and [VAttr],
    [VItem], [VBin] are attributes, items and arithmetic results that the
    embedding does not evaluate (methods of library objects, items of
    arrays, binary64 arithmetic). *)
Inductive pyval : Type :=
| VBool (b : bool)
| VInt (z : Z)
| VFloat (q : Q)
| VStr (s : string)
| VList (items : list pyval)
| VTuple (items : list pyval)
| VDict (items : list (string * pyval))
| VSlice
| VPath (p : path)
| VModule (name : string)
| VGlobal (module name : string)
| VFunction (name : string)
| VObj (id : nat)
| VNdarray (id : nat) (shape : list Z)
| VAttr (obj : pyval) (attr : string)
| VItem (obj : pyval) (key : pyval)
| VBin (op : binop) (l r : pyval).
Arguments VFloat q%_Q.

(** What running a cell records. *)
Inductive event : Type :=
| EMagic (line : string)
| EImportFrom (module name : string)
| EImportAs (module asname : string)
| EStore (name : string) (v : pyval)
| ESubscript (name : string) (key : pyval)
| ESetItem (name : string) (key v : pyval)
| EDelItem (name : string) (key : pyval)
| ECall (f : pyval) (args : list pyval) (kwargs : list (string * pyval)).

Record state : Type := State {
  globals : gmap string pyval;
  trace : list event
}.

Definition initial : state := State ∅ [].

Inductive result (A : Type) : Type :=
| Ok (a : A) (s : state)
| Err (msg : string).
Arguments Ok {A} a s.
Arguments Err {A} msg.

Definition M (A : Type) : Type := state -> result A.

Definition ret {A : Type} (a : A) : M A := fun s => Ok a s.

Definition bind {A B : Type} (c : M A) (k : A -> M B) : M B :=
  fun s => match c s with
           | Ok a s' => k a s'
           | Err msg => Err msg
           end.

Definition fail {A : Type} (msg : string) : M A := fun _ => Err msg.

Notation "x <- c ;; k" := (bind c (fun x => k))
  (at level 100, c at next level, right associativity).
Notation "c ;; k" := (bind c (fun _ => k))
  (at level 100, right associativity).

Definition emit (e : event) : M unit :=
  fun s => Ok tt (State (globals s) (trace s ++ [e])).

Definition position : M nat := fun s => Ok (length (trace s)) s.

(** *** pathlib *)

Fixpoint split_on (sep : ascii) (s : string) : list string :=
  match s with
  | EmptyString => [EmptyString]
  | String c r =>
      if Ascii.eqb c sep then EmptyString :: split_on sep r
      else match split_on sep r with
           | [] => [String c EmptyString]
           | h :: t => String c h :: t
           end
  end.

Definition is_component (p : string) : bool :=
  negb (String.eqb p "" || String.eqb p ".").

(** [Path(s)]: empty components and [.] are dropped, [..] is kept. *)
Definition parse_path (s : string) : path :=
  Path (String.prefix "/" s) (List.filter is_component (split_on "/" s)).

(** [a / b] *)
Definition join (a b : path) : path :=
  if absolute b then b else Path (absolute a) (parts a ++ parts b).

(** [p.parent]: the anchor is its own parent. *)
Definition parent (p : path) : path :=
  Path (absolute p) (removelast (parts p)).

(** The file system as far as the notebook consults it: the working
    directory of the kernel and the resolution of symbolic links and
    [..] on absolute paths. *)
Record world : Type := World {
  cwd : path;
  realpath : path -> path
}.

(** [p.resolve()] *)
Definition resolve (w : world) (p : path) : path :=
  realpath w (if absolute p then p else join (cwd w) p).

(** *** Builtins and library functions the embedding evaluates *)

Definition str_of_int (z : Z) : string :=
  NilZero.string_of_int (Z.to_int z).

(** [s.format(arg)] for a template with one [{}] field. *)
Fixpoint format1 (s : string) (arg : string) : string :=
  match s with
  | EmptyString => EmptyString
  | String c r =>
      match r with
      | String c' r' =>
          if Ascii.eqb c "{" && Ascii.eqb c' "}" then arg +:+ r'
          else String c (format1 r arg)
      | EmptyString => s
      end
  end.

(** [range(n)] as the list of its elements. *)
Definition range (n : Z) : list pyval :=
  map (fun i => VInt (Z.of_nat i)) (seq 0 (Z.to_nat n)).

(** Shape of the axes array of [matplotlib.pyplot.subplots(nrows, ncols)]
    with the default [squeeze=True]: dimensions of length one are
    dropped. *)
Definition subplots_shape (nrows ncols : Z) : list Z :=
  List.filter (fun n => negb (Z.eqb n 1)) [nrows; ncols].

Definition is_builtin (name : string) : bool :=
  String.eqb name "range".

Section Run.

Variable w : world.

(** The value of a call, given the position [id] of its event. *)
Definition call_result (id : nat) (f : pyval) (args : list pyval)
    (kwargs : list (string * pyval)) : pyval :=
  match f, args with
  | VGlobal "pathlib" "Path", [VStr s] => VPath (parse_path s)
  | VAttr (VGlobal "pathlib" "Path") "cwd", [] => VPath (cwd w)
  | VAttr (VPath p) "resolve", [] => VPath (resolve w p)
  | VAttr (VStr s) "format", [VInt j] => VStr (format1 s (str_of_int j))
  | VGlobal "builtins" "range", [VInt n] => VList (range n)
  | VGlobal "matplotlib.pyplot" "subplots", [VInt r; VInt c] =>
      match assoc "squeeze" kwargs with
      | None => VTuple [VObj id; VNdarray id (subplots_shape r c)]
      | Some _ => VObj id
      end
  | _, _ => VObj id
  end.

(** *** Statements and expressions *)

(** [name = v] *)
Definition store (name : string) (v : pyval) : M unit :=
  fun s => Ok tt (State (<[name := v]> (globals s)) (trace s ++ [EStore name v])).

(** A name in load context: the module namespace, then the builtins. *)
Definition load (name : string) : M pyval :=
  fun s => match globals s !! name with
           | Some v => Ok v s
           | None =>
               if is_builtin name then Ok (VGlobal "builtins" name) s
               else Err ("NameError: " +:+ name)
           end.

(** [%line] *)
Definition magic (line : string) : M unit := emit (EMagic line).

(** [from module import name] *)
Definition import_from (module name : string) : M unit :=
  fun s => Ok tt (State (<[name := VGlobal module name]> (globals s))
                        (trace s ++ [EImportFrom module name])).

(** [import module as asname] *)
Definition import_as (module asname : string) : M unit :=
  fun s => Ok tt (State (<[asname := VModule module]> (globals s))
                        (trace s ++ [EImportAs module asname])).

(** [def name(): ...] binds the name; the body is the Rocq definition. *)
Definition def_ (name : string) : M unit := store name (VFunction name).

(** [v.attr] *)
Definition getattr (v : pyval) (attr : string) : M pyval :=
  match v, attr with
  | VModule m, _ => ret (VGlobal m attr)
  | VPath p, "parent" => ret (VPath (parent p))
  | VNdarray _ shape, "shape" => ret (VTuple (map VInt shape))
  | _, _ => ret (VAttr v attr)
  end.

Definition index {A : Type} (l : list A) (i : Z) : option A :=
  let n := Z.of_nat (length l) in
  if (0 <=? i)%Z then nth_error l (Z.to_nat i)
  else if (0 <=? n + i)%Z then nth_error l (Z.to_nat (n + i))
  else None.

(** [v[key]] *)
Definition getitem (v key : pyval) : M pyval :=
  match v, key with
  | VDict kvs, VStr k =>
      match assoc k kvs with
      | Some x => ret x
      | None => fail ("KeyError: " +:+ k)
      end
  | VList l, VInt i | VTuple l, VInt i =>
      match index l i with
      | Some x => ret x
      | None => fail "IndexError"
      end
  | _, _ => ret (VItem v key)
  end.

(** [name[key]] in load context *)
Definition subscript (name : string) (key : pyval) : M pyval :=
  v <- load name ;;
  emit (ESubscript name key) ;;
  getitem v key.

Definition set_assoc (k : string) (x : pyval) (kvs : list (string * pyval))
    : list (string * pyval) :=
  match assoc k kvs with
  | Some _ => map (fun '(k', y) => if String.eqb k k' then (k', x) else (k', y)) kvs
  | None => kvs ++ [(k, x)]
  end.

(** [name[key] = x] on a dictionary bound to a name *)
Definition setitem (name : string) (key : string) (x : pyval) : M unit :=
  v <- load name ;;
  match v with
  | VDict kvs =>
      fun s => Ok tt (State (<[name := VDict (set_assoc key x kvs)]> (globals s))
                            (trace s ++ [ESetItem name (VStr key) x]))
  | _ => fail "TypeError: item assignment"
  end.

(** [del name[key]] on a dictionary bound to a name *)
Definition delitem (name : string) (key : string) : M unit :=
  v <- load name ;;
  match v with
  | VDict kvs =>
      match assoc key kvs with
      | Some _ =>
          fun s => Ok tt (State (<[name := VDict (List.filter (fun kv => negb (String.eqb key (fst kv))) kvs)]> (globals s))
                                (trace s ++ [EDelItem name (VStr key)]))
      | None => fail ("KeyError: " +:+ key)
      end
  | _ => fail "TypeError: item deletion"
  end.

(** [l op r]: paths are joined, integers computed, the rest is left as
    written. *)
Definition binary (op : binop) (l r : pyval) : M pyval :=
  match op, l, r with
  | TrueDiv, VPath a, VPath b => ret (VPath (join a b))
  | Add, VInt a, VInt b => ret (VInt (a + b))
  | Mul, VInt a, VInt b => ret (VInt (a * b))
  | _, _, _ => ret (VBin op l r)
  end.

(** [f(args..., key=value...)] *)
Definition call (f : pyval) (args : list pyval)
    (kwargs : list (string * pyval)) : M pyval :=
  id <- position ;;
  emit (ECall f args kwargs) ;;
  ret (call_result id f args kwargs).

(** A call of a function defined in the notebook, without arguments. *)
Definition call_def (f : pyval) (body : M pyval) : M pyval :=
  match f with
  | VFunction _ => emit (ECall f [] []) ;; body
  | _ => fail "TypeError: not callable"
  end.

(** [x, y = v] *)
Definition store2 (x y : string) (v : pyval) : M unit :=
  match v with
  | VTuple [a; b] | VList [a; b] => store x a ;; store y b
  | _ => fail "ValueError: unpack"
  end.

Fixpoint for_each (x : string) (vs : list pyval) (body : M unit) : M unit :=
  match vs with
  | [] => ret tt
  | v :: r => store x v ;; body ;; for_each x r body
  end.

(** [for x in iter: body] *)
Definition for_in (x : string) (iter : pyval) (body : M unit) : M unit :=
  match iter with
  | VList vs | VTuple vs => for_each x vs body
  | _ => fail "TypeError: not iterable"
  end.

End Run.

End Py.

(** ** notebooks/generate_data.ipynb *)

Module Notebook.
Import Common Py.

Section Cells.

Variable w : world.

(** [f(args, kwargs)] with [f] a name, and [obj.m(args, kwargs)]; the
    arguments have been evaluated by the caller. *)
Definition call_name (f : string) (args : list pyval)
    (kwargs : list (string * pyval)) : M pyval :=
  fv <- load f ;; call w fv args kwargs.

Definition call_method (obj : pyval) (m : string) (args : list pyval)
    (kwargs : list (string * pyval)) : M pyval :=
  f <- getattr obj m ;; call w f args kwargs.

(** *** Imports *)

Definition cell_imports : M unit :=
  magic "%load_ext autoreload" ;;
  magic "%autoreload 2" ;;
  magic "%matplotlib inline" ;;
  import_from "espm.datasets.base" "generate_dataset" ;;
  import_from "espm.weights.generate_weights" "chemical_map_weights" ;;
  import_from "espm.models.generate_EDXS_phases" "generate_modular_phases" ;;
  import_from "espm.models.EDXS_function" "elts_list_from_dict_list" ;;
  import_from "pathlib" "Path" ;;
  import_as "matplotlib.pyplot" "plt" ;;
  import_as "numpy" "np" ;;
  import_as "hyperspy.api" "hs".

(** *** Generate weights *)

(** [this_path] is a local of the function. *)
Definition get_repo_path : M pyval :=
  Path_ <- load "Path" ;;
  here <- call_method Path_ "cwd" [] [] ;;
  name <- call_name "Path" [VStr "generate_data.ipynb"] [] ;;
  this_path <- binary TrueDiv here name ;;
  resolved <- call_method this_path "resolve" [] [] ;;
  up <- getattr resolved "parent" ;;
  getattr up "parent".

Definition cell_weights : M unit :=
  def_ "get_repo_path" ;;
  f <- load "get_repo_path" ;;
  repo <- call_def f get_repo_path ;;
  rel <- call_name "Path" [VStr "generated_datasets/71GPa_experimental_data.hspy"] [] ;;
  p <- binary TrueDiv repo rel ;;
  store "path" p ;;
  file <- load "path" ;;
  weights <- call_name "chemical_map_weights" []
    [("file", file);
     ("line_list", VList [VStr "Fe_Ka"; VStr "Ca_Ka"]);
     ("conc_list", VList [VFloat 0.5; VFloat 0.5])] ;;
  store "weights" weights.

Definition cell_plot_weights : M unit :=
  plt <- load "plt" ;;
  height <- binary Mul (VInt 20) (VInt 3) ;;
  r <- call_method plt "subplots" [VInt 1; VInt 3]
         [("figsize", VTuple [VInt 20; height])] ;;
  store2 "fig" "axs" r ;;
  axs <- load "axs" ;;
  shape <- getattr axs "shape" ;;
  n <- getitem shape (VInt 0) ;;
  js <- call_name "range" [n] [] ;;
  for_in "j" js (
    j <- load "j" ;;
    ax <- subscript "axs" j ;;
    j <- load "j" ;;
    wj <- subscript "weights" (VTuple [VSlice; VSlice; j]) ;;
    im <- call_method ax "imshow" [wj]
            [("vmin", VInt 0); ("vmax", VFloat 1.0)] ;;
    store "im" im ;;
    j <- load "j" ;;
    ax <- subscript "axs" j ;;
    call_method ax "tick_params" []
      [("axis", VStr "both"); ("width", VInt 0);
       ("labelbottom", VBool false); ("labelleft", VBool false)] ;;
    j <- load "j" ;;
    ax <- subscript "axs" j ;;
    j <- load "j" ;;
    title <- call_method (VStr "Phase {}") "format" [j] [] ;;
    call_method ax "set_title" [title] [("fontsize", VInt 22)] ;;
    ret tt
  ) ;;
  fig <- load "fig" ;;
  call_method fig "subplots_adjust" [] [("right", VFloat 0.84)] ;;
  fig <- load "fig" ;;
  cbar_ax <- call_method fig "add_axes"
               [VList [VFloat 0.85; VFloat 0.47; VFloat 0.01; VFloat 0.045]] [] ;;
  store "cbar_ax" cbar_ax ;;
  fig <- load "fig" ;;
  im <- load "im" ;;
  cax <- load "cbar_ax" ;;
  call_method fig "colorbar" [im] [("cax", cax)] ;;
  cbar_ax <- load "cbar_ax" ;;
  call_method cbar_ax "tick_params" [] [("labelsize", VInt 22)] ;;
  ret tt.

(** *** Model parameters *)

Definition elts_dicts : pyval :=
  VList [
    (* Pseudo ferropericlase *)
    VDict [
      ("Mg", VFloat 0.522); ("Fe", VFloat 0.104); ("O", VFloat 0.374);
      ("Cu", VFloat 0.05)
    ];
    (* Pseudo Ca-Perovskite *)
    VDict [
      ("Mg", VFloat 0.020); ("Fe", VFloat 0.018); ("Ca", VFloat 0.188);
      ("Si", VFloat 0.173); ("Al", VFloat 0.010); ("O", VFloat 0.572);
      ("Ti", VFloat 0.004); ("Cu", VFloat 0.05); ("Sm", VFloat 0.007);
      ("Lu", VFloat 0.006); ("Nd", VFloat 0.006)
    ];
    (* Pseudo Bridgmanite *)
    VDict [
      ("Mg", VFloat 0.445); ("Fe", VFloat 0.035); ("Ca", VFloat 0.031);
      ("Si", VFloat 0.419); ("Al", VFloat 0.074); ("O", VFloat 1.136);
      ("Cu", VFloat 0.05); ("Hf", VFloat 0.01)
    ]].

Definition brstlg_pars : pyval :=
  VList [
    VDict [("b0", VFloat 0.0001629); ("b1", VFloat 0.0009812)];
    VDict [("b0", VFloat 0.0007853); ("b1", VFloat 0.0003658)];
    VDict [("b0", VFloat 0.0003458); ("b1", VFloat 0.0006268)]
  ].

Definition model_params : pyval :=
  VDict [
    ("e_offset", VFloat 0.3);
    ("e_size", VInt 1980);
    ("e_scale", VFloat 0.01);
    ("width_slope", VFloat 0.01);
    ("width_intercept", VFloat 0.065);
    ("db_name", VStr "200keV_xrays.json");
    ("E0", VInt 200);
    ("params_dict", VDict [
       ("Abs", VDict [
          ("thickness", VFloat 100.0e-7);
          ("toa", VInt 35);
          ("density", VFloat 4.5);
          ("atomic_fraction", VBool false)
        ]);
       ("Det", VStr "SDD_efficiency.txt")
     ])
  ].

Definition data_dict : pyval :=
  VDict [
    ("N", VInt 100);
    ("densities", VList [VFloat 1.2; VFloat 1.0; VFloat 0.8]);
    ("data_folder", VStr "71GPa_synthetic_N100");
    ("model", VStr "EDXS");
    ("seed", VInt 42)
  ].

Definition cell_parameters : M unit :=
  store "elts_dicts" elts_dicts ;;
  store "brstlg_pars" brstlg_pars ;;
  store "model_params" model_params ;;
  store "data_dict" data_dict.

(** *** Generate phases *)

Definition cell_phases : M unit :=
  a1 <- load "elts_dicts" ;;
  a2 <- load "brstlg_pars" ;;
  a3 <- load "model_params" ;;
  phases <- call_name "generate_modular_phases" []
    [("elts_dicts", a1); ("brstlg_pars", a2);
     ("scales", VList [VInt 1; VInt 1; VInt 1]);
     ("model_params", a3);
     ("seed", VInt 42)] ;;
  store "phases" phases ;;
  a <- load "elts_dicts" ;;
  elements <- call_name "elts_list_from_dict_list" [a] [] ;;
  store "elements" elements.

Definition cell_plot_phases : M unit :=
  plt <- load "plt" ;;
  r <- call_method plt "subplots" [VInt 3; VInt 1]
         [("figsize", VTuple [VInt 20; VInt 15])] ;;
  store2 "fig" "axs" r ;;
  (* Build the energy scale *)
  np <- load "np" ;;
  start <- subscript "model_params" (VStr "e_offset") ;;
  offset <- subscript "model_params" (VStr "e_offset") ;;
  scale <- subscript "model_params" (VStr "e_scale") ;;
  size <- subscript "model_params" (VStr "e_size") ;;
  span <- binary Mul scale size ;;
  stop <- binary Add offset span ;;
  num <- subscript "model_params" (VStr "e_size") ;;
  x <- call_method np "linspace" [start; stop] [("num", num)] ;;
  store "x" x ;;
  axs <- load "axs" ;;
  shape <- getattr axs "shape" ;;
  n <- getitem shape (VInt 0) ;;
  js <- call_name "range" [n] [] ;;
  for_in "j" js (
    j <- load "j" ;;
    ax <- subscript "axs" j ;;
    x <- load "x" ;;
    j <- load "j" ;;
    pj <- subscript "phases" j ;;
    call_method ax "plot" [x; pj] [] ;;
    j <- load "j" ;;
    ax <- subscript "axs" j ;;
    j <- load "j" ;;
    title <- call_method (VStr "Phase {}") "format" [j] [] ;;
    call_method ax "set_title" [title] [("fontsize", VInt 22)] ;;
    ret tt
  ) ;;
  last <- subscript "axs" (VInt (-1)) ;;
  call_method last "set_xlabel" [VStr "Energy loss (eV)"] [("fontsize", VInt 16)] ;;
  ret tt.

(** *** Generate the data *)

Definition cell_generate : M unit :=
  a1 <- load "phases" ;;
  a2 <- load "weights" ;;
  a3 <- load "model_params" ;;
  a4 <- load "data_dict" ;;
  a5 <- subscript "data_dict" (VStr "seed") ;;
  a7 <- load "elements" ;;
  call_name "generate_dataset" []
    [("phases", a1);
     ("weights", a2);
     ("model_params", a3);
     ("misc_params", a4);
     ("base_seed", a5);
     ("sample_number", VInt 1);
     ("elements", a7)] ;;
  ret tt.

(** The code cells in notebook order. *)
Definition cells : list (M unit) :=
  [cell_imports; cell_weights; cell_plot_weights; cell_parameters;
   cell_phases; cell_plot_phases; cell_generate].

Fixpoint run_cells (cs : list (M unit)) : M unit :=
  match cs with
  | [] => ret tt
  | c :: r => c ;; run_cells r
  end.

Definition notebook : M unit := run_cells cells.

Definition run : result unit := notebook initial.

End Cells.

End Notebook.

(** ** Reading a trace *)

Module Trace.
Import Common Py.

Definition trace_of {A : Type} (r : result A) : option (list event) :=
  match r with
  | Ok _ s => Some (trace s)
  | Err _ => None
  end.

(** The trace of running the whole notebook from a fresh kernel. *)
Definition run_trace (w : world) : option (list event) :=
  trace_of (Notebook.run w).

Record call_event : Type := CallEvent {
  callee : pyval;
  positional : list pyval;
  keywords : list (string * pyval)
}.

Definition calls (t : list event) : list call_event :=
  flat_map (fun e => match e with
                     | ECall f args kwargs => [CallEvent f args kwargs]
                     | _ => []
                     end) t.

(** The espm distribution's modules: [espm] and its dotted submodules. *)
Definition is_espm_module (m : string) : bool :=
  String.eqb m "espm" || String.prefix "espm." m.

(** A call into espm: the callee is an object imported from an espm
    module. *)
Definition is_espm_call (c : call_event) : bool :=
  match callee c with
  | VGlobal m _ => is_espm_module m
  | _ => false
  end.

Definition espm_calls (t : list event) : list call_event :=
  List.filter is_espm_call (calls t).

(** Name of the function or method called. *)
Definition callee_name (c : call_event) : string :=
  match callee c with
  | VGlobal _ n | VFunction n | VAttr _ n => n
  | _ => ""
  end.

(** How a call passes its arguments: the function, the number of
    positional arguments, and the keywords in order. *)
Definition signature (c : call_event) : string * nat * list string :=
  (callee_name c, length (positional c), map fst (keywords c)).

Definition find_call (name : string) (t : list event) : option call_event :=
  find (fun c => is_espm_call c && String.eqb (callee_name c) name) (calls t).

(** The argument that the first espm call of [name] receives under the
    keyword [kw]. *)
Definition keyword (name kw : string) (t : list event) : option pyval :=
  match find_call name t with
  | Some c => assoc kw (keywords c)
  | None => None
  end.

Definition espm_imports (t : list event) : list (string * string) :=
  flat_map (fun e => match e with
                     | EImportFrom m n => if is_espm_module m then [(m, n)] else []
                     | _ => []
                     end) t.

(** The configuration dictionaries of the notebook. *)
Definition config_names : list string :=
  ["elts_dicts"; "brstlg_pars"; "model_params"; "data_dict"].

Definition is_config (x : string) : bool :=
  existsb (String.eqb x) config_names.

Definition config_stores (t : list event) : list (string * pyval) :=
  flat_map (fun e => match e with
                     | EStore x v => if is_config x then [(x, v)] else []
                     | _ => []
                     end) t.

Definition config_reads (t : list event) : list (string * pyval) :=
  flat_map (fun e => match e with
                     | ESubscript x k => if is_config x then [(x, k)] else []
                     | _ => []
                     end) t.

Definition is_mutation (e : event) : bool :=
  match e with
  | ESetItem _ _ _ | EDelItem _ _ => true
  | _ => false
  end.

Definition mutations (t : list event) : list event := List.filter is_mutation t.


Definition reads_of (x : string) (t : list event) : list pyval :=
  flat_map (fun e => match e with
                     | ESubscript y k => if String.eqb x y then [k] else []
                     | _ => []
                     end) t.


(** The calls that consume the configuration dictionaries. *)
Definition is_consumer (f : pyval) : bool :=
  match f with
  | VGlobal m n =>
      is_espm_module m
      && (String.eqb n "generate_modular_phases" || String.eqb n "generate_dataset")
  | _ => false
  end.

(** Between the binding of a configuration dictionary and a consuming call
    that receives the bound value, every subscript on it is
    [data_dict["seed"]]. *)
Definition only_access_is_seed (t : list event) : Prop :=
  forall i j k x v key f args kwargs kw,
    In x config_names ->
    nth_error t i = Some (EStore x v) ->
    nth_error t j = Some (ESubscript x key) ->
    nth_error t k = Some (ECall f args kwargs) ->
    is_consumer f = true ->
    assoc kw kwargs = Some v ->
    i < j < k ->
    x = "data_dict" /\ key = VStr "seed".

(** *** Inspecting values *)








Definition item (v : pyval) (key : string) : option pyval :=
  match v with
  | VDict kvs => assoc key kvs
  | _ => None
  end.

Definition elements (v : pyval) : list pyval :=
  match v with
  | VList l | VTuple l => l
  | _ => []
  end.

Definition number (v : pyval) : option Q :=
  match v with
  | VFloat q => Some q
  | VInt z => Some (inject_Z z)
  | _ => None
  end.

Fixpoint sum_numbers (vs : list pyval) : option Q :=
  match vs with
  | [] => Some 0%Q
  | v :: r =>
      match number v, sum_numbers r with
      | Some q, Some s => Some (q + s)%Q
      | _, _ => None
      end
  end.

(** The sum of the decimal numerals written for the values of a
    dictionary, or for the items of a list, as an exact rational.  What
    the same values add up to as binary64 floats is [Binary64.total]. *)
Definition total (v : pyval) : option Q :=
  match v with
  | VDict kvs => sum_numbers (map snd kvs)
  | VList l | VTuple l => sum_numbers l
  | _ => None
  end.

(** The repository root: the parent of the parent of the resolved
    [cwd/generate_data.ipynb]; and the data file below it. *)
Definition repo_root (w : world) : path :=
  parent (parent (resolve w (join (cwd w) (parse_path "generate_data.ipynb")))).

Definition experimental_data (w : world) : path :=
  Path (absolute (repo_root w))
       (parts (repo_root w) ++ ["generated_datasets"; "71GPa_experimental_data.hspy"]).

End Trace.

(** ** The source tree *)

Module Repo.
Import Common.

Definition source_tree : list string :=
  ["notebooks/generate_data.ipynb"; "pyproject.toml"].

Fixpoint dots_to_slashes (s : string) : string :=
  match s with
  | EmptyString => EmptyString
  | String c r => String (if Ascii.eqb c "." then "/"%char else c) (dots_to_slashes r)
  end.

(** The files that can implement a module: [a/b.py] or the package
    [a/b/__init__.py]. *)
Definition module_files (m : string) : list string :=
  [dots_to_slashes m +:+ ".py"; dots_to_slashes m +:+ "/__init__.py"].

(** [file] is [candidate] below some directory of the tree. *)
Definition is_file (candidate file : string) : bool :=
  String.eqb file candidate || ends_with ("/" +:+ candidate) file.

Definition implemented (tree : list string) (m : string) : bool :=
  existsb (fun c => existsb (is_file c) tree) (module_files m).

End Repo.

(** ** A sample kernel

    The kernel is started in [/home/user/espm/notebooks] and the file
    system has no symbolic links. *)

Module Sample.
Import Py.

Definition world0 : world :=
  World (Path true ["home"; "user"; "espm"; "notebooks"]) (fun p => p).

End Sample.

(** ** Running single cells *)

Module Kernel.
Import Common Py.

(** The events a cell adds to the trace. *)
Definition new_events (s s' : state) : list event :=
  skipn (length (trace s)) (trace s').

(** The kernel after a run, or a fresh one if the run raised. *)
Definition state_after (r : result unit) : state :=
  match r with
  | Ok _ s => s
  | Err _ => initial
  end.

(** The kernel after the imports cell. *)
Definition imported : state := state_after (Notebook.cell_imports initial).

(** The kernel after the imports and the parameters cells. *)
Definition configured : state :=
  state_after (Notebook.cell_parameters imported).

(** The kernel after every cell but the last, started in [w]. *)
Definition prepared (w : world) : state :=
  state_after (Notebook.run_cells
                 [Notebook.cell_imports; Notebook.cell_weights w;
                  Notebook.cell_plot_weights w; Notebook.cell_parameters;
                  Notebook.cell_phases w; Notebook.cell_plot_phases w]
                 initial).

(** A kernel started in the root directory of the file system. *)
Definition root_world : world := World (Path true []) (fun p => p).

(** The prepared kernel with a [data_dict] that has no seed. *)
Definition unseeded (w : world) : state :=
  State (<["data_dict" := VDict [("N", VInt 100)]]> (globals (prepared w)))
        (trace (prepared w)).

End Kernel.

(** ** Reading the metadata *)

Module Meta.
Import Common Toml.

Definition classifiers (doc : document) : list string :=
  strings_of (lookup doc ["project"] "classifiers").

Definition requires_python (doc : document) : option string :=
  string_of (lookup doc ["project"] "requires-python").

Definition dev_dependencies (doc : document) : list string :=
  strings_of (lookup doc ["project"; "optional-dependencies"] "dev").

(** The package that contains a dotted package, if any. *)
Definition parent_package (p : string) : option string :=
  match rev (Py.split_on "." p) with
  | _ :: (_ :: _) as r => Some (String.concat "." (rev r))
  | _ => None
  end.

Fixpoint digits_value (acc : nat) (s : string) : option nat :=
  match s with
  | EmptyString => Some acc
  | String c r =>
      if is_digit c then digits_value (10 * acc + (nat_of_ascii c - 48)) r
      else None
  end.

Definition parse_nat (s : string) : option nat :=
  match s with
  | EmptyString => None
  | _ => digits_value 0 s
  end.

Fixpoint parse_all (l : list string) : option (list nat) :=
  match l with
  | [] => Some []
  | x :: r =>
      match parse_nat x, parse_all r with
      | Some n, Some ns => Some (n :: ns)
      | _, _ => None
      end
  end.

(** A release version: dot-separated numbers. *)
Definition parse_version (v : string) : option (list nat) :=
  parse_all (Py.split_on "." v).

(** Versions compare component by component; a missing component counts
    as zero. *)
Fixpoint version_compare (a b : list nat) : comparison :=
  match a, b with
  | [], _ => if forallb (Nat.eqb 0) b then Eq else Lt
  | _, [] => if forallb (Nat.eqb 0) a then Eq else Gt
  | x :: a', y :: b' =>
      match Nat.compare x y with
      | Eq => version_compare a' b'
      | c => c
      end
  end.

(** Whether version [v] satisfies a single-clause specifier such as
    [>=3.8]; [None] for a specifier this reading does not cover. *)
Definition satisfies (spec : string) (v : list nat) : option bool :=
  match split_operator spec with
  | Some (op, bound) =>
      match parse_version bound with
      | Some b =>
          let c := version_compare v b in
          if String.eqb op ">=" then Some (match c with Lt => false | _ => true end)
          else if String.eqb op "<=" then Some (match c with Gt => false | _ => true end)
          else if String.eqb op ">" then Some (match c with Gt => true | _ => false end)
          else if String.eqb op "<" then Some (match c with Lt => true | _ => false end)
          else if String.eqb op "==" then Some (match c with Eq => true | _ => false end)
          else if String.eqb op "!=" then Some (match c with Eq => false | _ => true end)
          else None
      | None => None
      end
  | None => None
  end.

(** The Python version a trove classifier names, if it names one. *)
Definition python_version (classifier : string) : option (list nat) :=
  let p := "Programming Language :: Python :: " in
  if String.prefix p classifier
  then parse_version (drop (String.length p) classifier)
  else None.

Definition requirement_name (d : string) : option string :=
  match parse_requirement d with
  | Some r => Some (req_name r)
  | None => None
  end.

Definition is_alnum (c : ascii) : bool :=
  is_digit c || in_range 65 90 c || in_range 97 122 c.

(** A distribution name: letters, digits, [.], [_] and [-], with a letter
    or a digit at both ends. *)
Definition valid_name (n : string) : bool :=
  match n, String.get (String.length n - 1) n with
  | String c _, Some z => is_alnum c && is_alnum z && all_chars is_name_char n
  | _, _ => false
  end.

(** A release version: one or more numbers separated by single dots. *)
Definition valid_version (v : string) : bool :=
  match parse_version v with
  | Some (_ :: _) => true
  | _ => false
  end.

(** A requirement of the plain form used in this file: a valid name,
    alone or followed by one comparison operator and a release version. *)
Definition well_formed (d : string) : bool :=
  match parse_requirement d with
  | Some (Requirement n None) => valid_name n
  | Some (Requirement n (Some (_, v))) => valid_name n && valid_version v
  | None => false
  end.

Definition lower (c : ascii) : ascii :=
  if in_range 65 90 c then ascii_of_nat (nat_of_ascii c + 32) else c.

Definition is_separator (c : ascii) : bool :=
  Ascii.eqb c "-" || Ascii.eqb c "_" || Ascii.eqb c ".".

(** Names are compared in lower case, with every run of [-], [_] and [.]
    read as one [-]. *)
Fixpoint normalize (after_separator : bool) (s : string) : string :=
  match s with
  | EmptyString => EmptyString
  | String c r =>
      if is_separator c
      then if after_separator then normalize true r
           else String "-" (normalize true r)
      else String (lower c) (normalize false r)
  end.

Definition normalized_name (d : string) : option string :=
  match requirement_name d with
  | Some n => Some (normalize false n)
  | None => None
  end.

End Meta.

(** ** Floats as the interpreter holds them *)

Module Binary64.
Import Py PrimFloat.

(** A positive integer as a float; exact below [2^53], where every
    intermediate value is an integer of at most 53 bits. *)
Fixpoint float_of_pos (p : positive) : float :=
  match p with
  | xH => 1%float
  | xO p' => (2 * float_of_pos p')%float
  | xI p' => (2 * float_of_pos p' + 1)%float
  end.

Definition float_of_Z (z : Z) : float :=
  match z with
  | Z0 => 0%float
  | Zpos p => float_of_pos p
  | Zneg p => (- float_of_pos p)%float
  end.

(** Numerator and denominator of the numeral are below [2^53]. *)
Definition exact (q : Q) : bool :=
  (Z.abs (Qnum q) <? 2 ^ 53)%Z && (Zpos (Qden q) <? 2 ^ 53)%Z.

(** The float a decimal numeral denotes: the double nearest to it.  For a
    numeral [m / 10^k] with [exact] parts, both parts are floats and the
    IEEE division, which rounds to nearest, yields that double. *)
Definition of_decimal (q : Q) : float :=
  (float_of_Z (Qnum q) / float_of_pos (Qden q))%float.

Definition value (v : pyval) : option float :=
  match v with
  | VFloat q => if exact q then Some (of_decimal q) else None
  | VInt z => if (Z.abs z <? 2 ^ 53)%Z then Some (float_of_Z z) else None
  | _ => None
  end.

(** [sum(values, start)]: the values are added one by one, left to right,
    each addition rounding to nearest. *)
Fixpoint sum_from (acc : float) (vs : list pyval) : option float :=
  match vs with
  | [] => Some acc
  | v :: r =>
      match value v with
      | Some f => sum_from (acc + f)%float r
      | None => None
      end
  end.

(** [sum(d.values())] of a dictionary in insertion order, or [sum(l)]. *)
Definition total (v : pyval) : option float :=
  match v with
  | VDict kvs => sum_from 0%float (map snd kvs)
  | VList l | VTuple l => sum_from 0%float l
  | _ => None
  end.

(** The sum of a dictionary's values is the float of the decimal [q]. *)
Definition sums_to (d : pyval) (q : Q) : Prop :=
  total d = Some (of_decimal q).

Definition is_float (f : float) (o : option float) : bool :=
  match o with
  | Some g => PrimFloat.eqb g f
  | None => false
  end.

End Binary64.

(** ** File names among the arguments *)

Module Files.
Import Common Py Trace.

Definition is_letter (c : ascii) : bool :=
  Toml.in_range 65 90 c || Toml.in_range 97 122 c.

Definition is_alnum (c : ascii) : bool :=
  Toml.is_digit c || is_letter c.







End Files.

(** ** The absent library *)

Module Library.
Import Common Py Trace.


End Library.

(** * Properties *)

(** ** Requirement strings *)

Section Requirements.
Import Common Toml.








End Requirements.

(** ** Packaging metadata *)

Section Packaging.
Import Common Toml.




(** C5: the metadata registers exactly one entry point: the name [espm],
    bound to the module [espm], in the group [hyperspy.extensions]. *)
Theorem one_hyperspy_extension_entry_point :
  entry_points pyproject = [EntryPoint "hyperspy.extensions" "espm" "espm"]
  /\ lookup pyproject ["project"; "entry-points"; "hyperspy.extensions"] "espm"
     = Some (TStr "espm")
  /\ length (List.filter (fun t => match header t with
                              | "project" :: "entry-points" :: _ => true
                              | _ => false
                              end) pyproject) = 1.
Proof. repeat split. Qed.

(** C7: the build system is [setuptools.build_meta] and requires
    [setuptools>=64], [setuptools_scm>=8] and [wheel]; the package list has
    exactly seven distinct entries, each [espm] or a name starting with
    [espm.]. *)
Theorem build_system_and_packages :
  build_backend pyproject = Some "setuptools.build_meta"
  /\ build_requires pyproject = ["setuptools>=64"; "setuptools_scm>=8"; "wheel"]
  /\ map parse_requirement (build_requires pyproject)
     = [Some (Requirement "setuptools" (Some (">=", "64")));
        Some (Requirement "setuptools_scm" (Some (">=", "8")));
        Some (Requirement "wheel" None)]
  /\ length (packages pyproject) = 7
  /\ List.NoDup (packages pyproject)
  /\ Forall (fun p => p = "espm" \/ String.prefix "espm." p = true)
            (packages pyproject).
Proof.
  do 4 (split; [reflexivity|]). split.
  - apply NoDup_ListNoDup, (bool_decide_unpack _). reflexivity.
  - cbv [packages lookup find_table find pyproject header path_eqb]. simpl.
    repeat (constructor; [first [now left | now right]|]). constructor.
Qed.

End Packaging.

(** ** The notebook *)

Section NotebookProperties.
Import Common Py Trace.

(** The notebook runs to completion whatever the working directory and
    the link structure of the file system are. *)
Lemma notebook_runs (w : world) : exists s, Notebook.run w = Ok tt s.
Proof.
  destruct (Notebook.run w) as [[] s|msg] eqn:E.
  - now exists s.
  - vm_compute in E. discriminate.
Qed.

(** Closes [exists t, run_trace w = Some t /\ P t] by running the notebook. *)
Ltac run_notebook w :=
  let t := eval vm_compute in (run_trace w) in
  match t with
  | Some ?t' => exists t'; split; [vm_compute; reflexivity|]
  end.

(** *** pathlib *)

Lemma removelast_snoc {A : Type} (l : list A) (x : A) :
  removelast (l ++ [x]) = l.
Proof. apply removelast_last. Qed.

(** Started in a directory directly below [root], on a file system without
    symbolic links, [get_repo_path] finds [root]. *)
Lemma repo_root_below (root : list string) (dir : string) :
  repo_root (World (Path true (root ++ [dir])) (fun p => p)) = Path true root.
Proof.
  unfold repo_root, resolve, join, parent. simpl.
  now rewrite !removelast_snoc.
Qed.

Lemma experimental_data_below (root : list string) (dir : string) :
  experimental_data (World (Path true (root ++ [dir])) (fun p => p))
  = Path true (root ++ ["generated_datasets"; "71GPa_experimental_data.hspy"]).
Proof. unfold experimental_data. now rewrite repo_root_below. Qed.

(** *** Data flow of the last cell *)

(** Whatever dictionary [data_dict] is bound to when the last cell runs,
    [generate_dataset] receives that dictionary as [misc_params] and the
    value of its ["seed"] item as [base_seed]. *)
Lemma cell_generate_passes_seed (w : world) (s : state)
    (phases weights params elements seed : pyval) (kvs : list (string * pyval)) :
  globals s !! "generate_dataset" = Some (VGlobal "espm.datasets.base" "generate_dataset") ->
  globals s !! "phases" = Some phases ->
  globals s !! "weights" = Some weights ->
  globals s !! "model_params" = Some params ->
  globals s !! "elements" = Some elements ->
  globals s !! "data_dict" = Some (VDict kvs) ->
  assoc "seed" kvs = Some seed ->
  Notebook.cell_generate w s
  = Ok tt (State (globals s)
                 (trace s ++ [ESubscript "data_dict" (VStr "seed")]
                          ++ [ECall (VGlobal "espm.datasets.base" "generate_dataset") []
                                [("phases", phases);
                                 ("weights", weights);
                                 ("model_params", params);
                                 ("misc_params", VDict kvs);
                                 ("base_seed", seed);
                                 ("sample_number", VInt 1);
                                 ("elements", elements)]])).
Proof.
  intros Hf Hp Hw Hm He Hd Hs.
  unfold Notebook.cell_generate, Notebook.call_name, subscript, call, bind,
    load, emit, position, getitem, ret; simpl.
  repeat (rewrite ?Hp, ?Hw, ?Hm, ?Hd, ?Hs, ?He, ?Hf; simpl).
  now rewrite <- app_assoc.
Qed.

(** *** Bindings and mutation *)

Lemma load_store (x : string) (v : pyval) (s : state) :
  exists s', store x v s = Ok tt s' /\ load x s' = Ok v s'.
Proof.
  eexists. split; [reflexivity|].
  unfold load. simpl. now rewrite lookup_insert_eq.
Qed.

(** Binding one name leaves the others as they were. *)
Lemma store_frame (x y : string) (v : pyval) (s s' : state) :
  x <> y -> store x v s = Ok tt s' -> globals s' !! y = globals s !! y.
Proof.
  unfold store. intros Hne [= <-]. simpl. now apply lookup_insert_ne.
Qed.

(** Reading never changes the bindings. *)
Lemma subscript_frame (x : string) (key v : pyval) (s s' : state) :
  subscript x key s = Ok v s' -> globals s' = globals s.
Proof.
  unfold subscript, bind, load, emit.
  destruct (globals s !! x) as [d|]; [|destruct (is_builtin x)]; simpl;
    try discriminate.
  - unfold getitem.
    destruct d, key; simpl;
      repeat match goal with
             | |- context [match ?o with Some _ => _ | None => _ end] => destruct o
             end; unfold ret, fail; intros [=]; subst; reflexivity.
  - unfold getitem, ret. intros [=]; subst; reflexivity.
Qed.

Lemma call_frame (w : world) (f v : pyval) (args : list pyval)
    (kwargs : list (string * pyval)) (s s' : state) :
  call w f args kwargs s = Ok v s' ->
  globals s' = globals s /\ trace s' = trace s ++ [ECall f args kwargs].
Proof.
  unfold call, bind, position, emit, ret. intros [= <- <-].
  split; reflexivity.
Qed.

(** An item assignment or deletion cannot go unnoticed: it is the last
    event of the trace. *)
Lemma setitem_recorded (x key : string) (v : pyval) (s s' : state) :
  setitem x key v s = Ok tt s' -> mutations (trace s') <> [].
Proof.
  unfold setitem, bind, load.
  destruct (globals s !! x) as [d|]; [destruct d|destruct (is_builtin x)];
    simpl; try discriminate.
  intros [= <-]. simpl. unfold mutations. rewrite List.filter_app. simpl.
  now destruct (List.filter is_mutation (trace s)).
Qed.

Lemma delitem_recorded (x key : string) (s s' : state) :
  delitem x key s = Ok tt s' -> mutations (trace s') <> [].
Proof.
  unfold delitem, bind, load.
  destruct (globals s !! x) as [d|]; [destruct d|destruct (is_builtin x)];
    simpl; try discriminate.
  destruct (assoc key items); [|discriminate].
  intros [= <-]. simpl. unfold mutations. rewrite List.filter_app. simpl.
  now destruct (List.filter is_mutation (trace s)).
Qed.

(** *** Calls into espm *)

(** C1, as stated, fails: [elts_list_from_dict_list] is called with a
    positional argument. *)
Lemma espm_calls_not_all_keyword :
  ~ (forall w t c,
       run_trace w = Some t -> In c (espm_calls t) -> positional c = []).
Proof.
  intros H.
  destruct (run_trace Sample.world0) as [t|] eqn:E;
    [|vm_compute in E; discriminate].
  specialize (H Sample.world0 t
    (CallEvent (VGlobal "espm.models.EDXS_function" "elts_list_from_dict_list")
               [Notebook.elts_dicts] []) E).
  vm_compute in E. injection E as <-.
  assert (Hp : [Notebook.elts_dicts] = []); [|discriminate Hp].
  apply H. apply (nth_error_In _ 2). reflexivity.
Qed.

(** C1, amended: the notebook makes four calls into espm.  The calls of
    [chemical_map_weights], [generate_modular_phases] and
    [generate_dataset] pass every argument by keyword;
    [elts_list_from_dict_list] is called with [elts_dicts] as its single,
    positional argument. *)
Theorem espm_call_signatures (w : world) :
  exists t, run_trace w = Some t
    /\ map signature (espm_calls t)
       = [("chemical_map_weights", 0, ["file"; "line_list"; "conc_list"]);
          ("generate_modular_phases", 0,
           ["elts_dicts"; "brstlg_pars"; "scales"; "model_params"; "seed"]);
          ("elts_list_from_dict_list", 1, []);
          ("generate_dataset", 0,
           ["phases"; "weights"; "model_params"; "misc_params"; "base_seed";
            "sample_number"; "elements"])]
    /\ map positional (espm_calls t) = [[]; []; [Notebook.elts_dicts]; []].
Proof. run_notebook w. split; vm_compute; reflexivity. Qed.

(** C3: the espm callables the notebook calls are the four functions
    [chemical_map_weights], [generate_modular_phases],
    [elts_list_from_dict_list] and [generate_dataset]; each is bound by a
    [from ... import] of an espm module, and no file of the source tree
    implements any of these modules. *)
Theorem espm_functions_are_imported_and_absent (w : world) :
  exists t, run_trace w = Some t
    /\ map callee (espm_calls t)
       = [VGlobal "espm.weights.generate_weights" "chemical_map_weights";
          VGlobal "espm.models.generate_EDXS_phases" "generate_modular_phases";
          VGlobal "espm.models.EDXS_function" "elts_list_from_dict_list";
          VGlobal "espm.datasets.base" "generate_dataset"]
    /\ espm_imports t
       = [("espm.datasets.base", "generate_dataset");
          ("espm.weights.generate_weights", "chemical_map_weights");
          ("espm.models.generate_EDXS_phases", "generate_modular_phases");
          ("espm.models.EDXS_function", "elts_list_from_dict_list")]
    /\ Forall (fun c => exists m n, callee c = VGlobal m n
                                    /\ In (m, n) (espm_imports t)
                                    /\ Repo.implemented Repo.source_tree m = false)
              (espm_calls t)
    /\ map (fun mn => Repo.module_files (fst mn)) (espm_imports t)
       = [["espm/datasets/base.py"; "espm/datasets/base/__init__.py"];
          ["espm/weights/generate_weights.py";
           "espm/weights/generate_weights/__init__.py"];
          ["espm/models/generate_EDXS_phases.py";
           "espm/models/generate_EDXS_phases/__init__.py"];
          ["espm/models/EDXS_function.py";
           "espm/models/EDXS_function/__init__.py"]].
Proof.
  run_notebook w. do 2 (split; [vm_compute; reflexivity|]). split.
  - vm_compute espm_calls. vm_compute espm_imports.
    repeat (constructor;
            [eexists _, _; split; [reflexivity|]; split;
             [simpl; tauto | reflexivity]|]).
    constructor.
  - vm_compute. reflexivity.
Qed.

(** *** The configuration dictionaries *)

(** C4, as stated, fails: between the binding of [model_params] and the
    call of [generate_dataset] that receives it, the notebook reads
    [model_params["e_offset"]]. *)
Lemma config_access_not_only_seed :
  ~ (forall w t, run_trace w = Some t -> only_access_is_seed t).
Proof.
  intros H.
  destruct (run_trace Sample.world0) as [t|] eqn:E;
    [|vm_compute in E; discriminate].
  specialize (H Sample.world0 t E).
  vm_compute in E. injection E as <-.
  assert (Hx : "model_params" = "data_dict"); [|discriminate Hx].
  eapply (H 61 70 102 "model_params" _ _ _ _ _ "model_params").
  - simpl. tauto.
  - reflexivity.
  - reflexivity.
  - reflexivity.
  - reflexivity.
  - reflexivity.
  - lia.
Qed.

(** C4, amended: each of [elts_dicts], [brstlg_pars], [model_params] and
    [data_dict] is bound once, to its literal, and no statement of the
    notebook assigns or deletes an item of any object; the calls of
    [generate_modular_phases] and [generate_dataset] receive exactly the
    literals.  The notebook subscripts these dictionaries only to read:
    [model_params["e_offset"]] (twice), [model_params["e_scale"]] and
    [model_params["e_size"]] (twice) for the energy axis of the phase
    plot, and [data_dict["seed"]]. *)
Theorem config_dicts_passed_as_defined (w : world) :
  exists t, run_trace w = Some t
    /\ config_stores t
       = [("elts_dicts", Notebook.elts_dicts);
          ("brstlg_pars", Notebook.brstlg_pars);
          ("model_params", Notebook.model_params);
          ("data_dict", Notebook.data_dict)]
    /\ mutations t = []
    /\ keyword "generate_modular_phases" "elts_dicts" t = Some Notebook.elts_dicts
    /\ keyword "generate_modular_phases" "brstlg_pars" t = Some Notebook.brstlg_pars
    /\ keyword "generate_modular_phases" "model_params" t = Some Notebook.model_params
    /\ keyword "generate_dataset" "model_params" t = Some Notebook.model_params
    /\ keyword "generate_dataset" "misc_params" t = Some Notebook.data_dict
    /\ config_reads t
       = [("model_params", VStr "e_offset");
          ("model_params", VStr "e_offset");
          ("model_params", VStr "e_scale");
          ("model_params", VStr "e_size");
          ("model_params", VStr "e_size");
          ("data_dict", VStr "seed")].
Proof. run_notebook w. repeat split; vm_compute; reflexivity. Qed.

(** *** Files *)




(** *** Phases, concentrations and seeds *)


Section Floats.
Import PrimFloat.

(** On the numerals of the concentrations, [Binary64.of_decimal] gives the
    double that the numeral denotes when read as a float. *)
Lemma of_decimal_reads_numerals :
  forallb (fun p => Binary64.exact (fst p) && eqb (Binary64.of_decimal (fst p)) (snd p))
    [(0.522%Q, 0.522%float); (0.104%Q, 0.104%float); (0.374%Q, 0.374%float);
     (0.05%Q, 0.05%float); (0.020%Q, 0.020%float); (0.018%Q, 0.018%float);
     (0.188%Q, 0.188%float); (0.173%Q, 0.173%float); (0.010%Q, 0.010%float);
     (0.572%Q, 0.572%float); (0.004%Q, 0.004%float); (0.007%Q, 0.007%float);
     (0.006%Q, 0.006%float); (0.445%Q, 0.445%float); (0.035%Q, 0.035%float);
     (0.031%Q, 0.031%float); (0.419%Q, 0.419%float); (0.074%Q, 0.074%float);
     (1.136%Q, 1.136%float); (0.01%Q, 0.01%float); (0.5%Q, 0.5%float);
     (1.050%Q, 1.05%float); (1.054%Q, 1.054%float); (2.200%Q, 2.2%float)]
  = true.
Proof. vm_compute. reflexivity. Qed.

(** C9, as stated, fails: added as the floats they are, in dictionary
    order, the concentrations of the second dictionary do not sum to the
    float 1.054 (nor those of the third to 2.2). *)
Lemma concentration_sums_not_exact :
  ~ Forall2 Binary64.sums_to
            (elements Notebook.elts_dicts) [1.050%Q; 1.054%Q; 2.200%Q].
Proof.
  cbv [elements Notebook.elts_dicts]. intros H.
  inversion H as [|d1 q1 l1 r1 _ H1]; subst.
  inversion H1 as [|d2 q2 l2 r2 H2 _]; subst.
  unfold Binary64.sums_to in H2.
  apply (f_equal (Binary64.is_float (Binary64.of_decimal 1.054))) in H2.
  vm_compute in H2. discriminate H2.
Qed.

(** C9, amended: the concentrations of every dictionary of [elts_dicts]
    sum to more than 1.  The decimal numerals written in the source add up
    to 1.050, 1.054 and 2.200; the floats they denote, added in dictionary
    order, give 1.05, 1.0539999999999998 and 2.1999999999999993, so that
    only the first sum is the float of its decimal figure.  The
    [conc_list] of [chemical_map_weights] is [[0.5, 0.5]] and sums to
    exactly 1, as decimals and as floats. *)
Theorem concentrations_exceed_one (w : world) :
  exists t, run_trace w = Some t
    /\ keyword "generate_modular_phases" "elts_dicts" t = Some Notebook.elts_dicts
    /\ map Binary64.total (elements Notebook.elts_dicts)
       = [Some 1.05%float; Some 1.0539999999999998%float;
          Some 2.1999999999999993%float]
    /\ map (fun d => Binary64.total d ≫= (fun s => Some (ltb 1 s)))
           (elements Notebook.elts_dicts)
       = [Some true; Some true; Some true]
    /\ map (fun dq => Binary64.is_float (Binary64.of_decimal (snd dq))
                                        (Binary64.total (fst dq)))
           (combine (elements Notebook.elts_dicts) [1.050%Q; 1.054%Q; 2.200%Q])
       = [true; false; false]
    /\ Forall2 (fun d q => exists s, Trace.total d = Some s /\ (s == q)%Q /\ (1 < s)%Q)
               (elements Notebook.elts_dicts) [1.050%Q; 1.054%Q; 2.200%Q]
    /\ keyword "chemical_map_weights" "conc_list" t
       = Some (VList [VFloat 0.5; VFloat 0.5])
    /\ Binary64.total (VList [VFloat 0.5; VFloat 0.5]) = Some 1%float
    /\ exists s, Trace.total (VList [VFloat 0.5; VFloat 0.5]) = Some s /\ (s == 1)%Q.
Proof.
  run_notebook w. do 4 (split; [vm_compute; reflexivity|]). split.
  - repeat (constructor; [eexists; split; [reflexivity|]; split; reflexivity|]).
    constructor.
  - do 2 (split; [vm_compute; reflexivity|]). eexists. split; reflexivity.
Qed.

End Floats.

(** C10: the [seed] argument of [generate_modular_phases], the ["seed"]
    item of [data_dict] and the [base_seed] argument of [generate_dataset]
    are all 42; the last is obtained by the notebook's only subscript of
    [data_dict], which reads ["seed"]. *)
Theorem seeds_agree (w : world) :
  exists t, run_trace w = Some t
    /\ keyword "generate_modular_phases" "seed" t = Some (VInt 42)
    /\ item Notebook.data_dict "seed" = Some (VInt 42)
    /\ keyword "generate_dataset" "misc_params" t ≫= (fun d => item d "seed")
       = Some (VInt 42)
    /\ keyword "generate_dataset" "base_seed" t = Some (VInt 42)
    /\ reads_of "data_dict" t = [VStr "seed"]
    /\ keyword "generate_dataset" "base_seed" t
       = keyword "generate_modular_phases" "seed" t.
Proof. run_notebook w. repeat split; vm_compute; reflexivity. Qed.

End NotebookProperties.

(** * Further properties of the code *)

Section CellProperties.
Import Common Py Trace Kernel.

(** ** Single cells on an arbitrary kernel

    The cells are executed symbolically, statement by statement, from a
    kernel state of which only the needed bindings are known. *)

Lemma skipn_length_app {A} (l k : list A) : skipn (length l) (l ++ k) = k.
Proof. induction l; simpl; auto. Qed.

Section Steps.
Context {A B : Type}.

Lemma bind_step (c : M A) (k : A -> M B) (s s1 : state) (a : A) (r : result B) :
  c s = Ok a s1 -> k a s1 = r -> bind c k s = r.
Proof. intros Hc Hk. unfold bind. now rewrite Hc. Qed.

Lemma bind_fails (c : M A) (k : A -> M B) (s : state) (msg : string) :
  c s = Err msg -> bind c k s = Err msg.
Proof. intros Hc. unfold bind. now rewrite Hc. Qed.

End Steps.

Lemma load_bound g t x v : g !! x = Some v -> load x (State g t) = Ok v (State g t).
Proof. intros H. unfold load. simpl. now rewrite H. Qed.

Lemma load_builtin g t x :
  g !! x = None -> is_builtin x = true ->
  load x (State g t) = Ok (VGlobal "builtins" x) (State g t).
Proof. intros H Hb. unfold load. simpl. now rewrite H, Hb. Qed.

Lemma load_unbound g t x :
  g !! x = None -> is_builtin x = false ->
  load x (State g t) = Err ("NameError: " +:+ x).
Proof. intros H Hb. unfold load. simpl. now rewrite H, Hb. Qed.

Lemma emit_step g t l l' e :
  l' = l ++ [e] -> emit e (State g (t ++ l)) = Ok tt (State g (t ++ l')).
Proof. intros ->. unfold emit. simpl. now rewrite app_assoc. Qed.

Lemma store_step g t l l' x v :
  l' = l ++ [EStore x v] ->
  store x v (State g (t ++ l)) = Ok tt (State (<[x:=v]> g) (t ++ l')).
Proof. intros ->. unfold store. simpl. now rewrite app_assoc. Qed.

Lemma position_step g t l n :
  n = length l ->
  position (State g (t ++ l)) = Ok (length t + n) (State g (t ++ l)).
Proof. intros ->. unfold position. simpl. now rewrite length_app. Qed.

Lemma getitem_tuple_key (v : pyval) (l : list pyval) (s : state) :
  getitem v (VTuple l) s = Ok (VItem v (VTuple l)) s.
Proof. destruct v; reflexivity. Qed.

Lemma getitem_dict kvs k x s :
  assoc k kvs = Some x -> getitem (VDict kvs) (VStr k) s = Ok x s.
Proof. intros H. simpl. now rewrite H. Qed.

Lemma getitem_dict_missing kvs k s :
  assoc k kvs = None -> getitem (VDict kvs) (VStr k) s = Err ("KeyError: " +:+ k).
Proof. intros H. simpl. now rewrite H. Qed.

Lemma repo_root_parent_of_cwd (w : world) :
  absolute (cwd w) = true ->
  realpath w (join (cwd w) (parse_path "generate_data.ipynb"))
    = join (cwd w) (parse_path "generate_data.ipynb") ->
  repo_root w = parent (cwd w).
Proof.
  intros Habs Hreal. unfold repo_root, resolve.
  assert (Hj : absolute (join (cwd w) (parse_path "generate_data.ipynb")) = true)
    by exact Habs.
  rewrite Hj, Hreal. unfold join, parent. simpl.
  now rewrite removelast_last.
Qed.

Lemma experimental_data_beside_cwd (w : world) :
  absolute (cwd w) = true ->
  realpath w (join (cwd w) (parse_path "generate_data.ipynb"))
    = join (cwd w) (parse_path "generate_data.ipynb") ->
  experimental_data w
  = Path true (removelast (parts (cwd w))
               ++ ["generated_datasets"; "71GPa_experimental_data.hspy"]).
Proof.
  intros Habs Hreal. unfold experimental_data.
  rewrite (repo_root_parent_of_cwd w Habs Hreal). unfold parent. simpl.
  now rewrite Habs.
Qed.

(** Looks a name up in a map built by insertions. *)
Ltac lookup :=
  repeat first [ rewrite lookup_insert_eq
               | rewrite lookup_insert_ne by discriminate ];
  first [ reflexivity | eassumption ].

(** Evaluates an expression that has no effect. *)
Ltac pure_step f :=
  lazymatch goal with
  | |- ?c ?s = ?rhs =>
      let r := eval simpl in c in
      change (r s = rhs); cbv beta
  end.

(** Runs a cell that completes, one statement at a time. *)
Ltac run :=
  lazymatch goal with
  | |- bind _ _ _ = _ => eapply bind_step; [run | cbv beta; run]
  | |- Ok _ _ = _ => reflexivity
  | |- ret ?v ?s = ?rhs =>
      let r := eval cbn in v in
      change (ret r s = rhs); reflexivity
  | |- load _ _ = _ =>
      first [ apply load_bound; lookup
            | apply load_builtin; [lookup | reflexivity] ]
  | |- emit _ _ = _ => apply emit_step; cbn [app]; reflexivity
  | |- store _ _ _ = _ => apply store_step; cbn [app]; reflexivity
  | |- position _ = _ => apply position_step; cbn [length]; reflexivity
  | |- getitem _ (VTuple _) _ = _ => apply getitem_tuple_key
  | |- getitem (VDict _) (VStr _) _ = _ =>
      first [ apply getitem_dict; eassumption | pure_step getitem; run ]
  | |- getitem _ _ _ = _ => pure_step getitem; run
  | |- getattr _ _ _ = _ => pure_step getattr; run
  | |- binary _ _ _ _ = _ => pure_step binary; run
  | |- call _ _ _ _ _ = _ => unfold call; run
  | |- subscript _ _ _ = _ => unfold subscript; run
  | |- Notebook.call_name _ _ _ _ _ = _ => unfold Notebook.call_name; run
  | |- Notebook.call_method _ _ _ _ _ _ = _ => unfold Notebook.call_method; run
  | |- call_def _ _ _ = _ => cbn [call_def]; run
  | |- def_ _ _ = _ => unfold def_; run
  | |- store2 _ _ _ _ = _ => cbn [store2]; run
  | |- for_in _ _ _ _ = _ => cbn [for_in]; run
  | |- for_each ?x ?l ?b ?s = ?rhs =>
      let l' := eval cbv in l in
      change (for_each x l' b s = rhs); progress cbn [for_each]; run
  | |- Notebook.get_repo_path _ _ = _ => unfold Notebook.get_repo_path; run
  end.

(** Runs a cell up to the statement that raises. *)
Ltac run_err :=
  lazymatch goal with
  | |- bind _ _ _ = _ =>
      first [ eapply bind_step; [solve [run] | cbv beta; run_err]
            | apply bind_fails; run_err ]
  | |- load _ _ = _ => apply load_unbound; [lookup | reflexivity]
  | |- getitem (VDict _) (VStr _) _ = _ => apply getitem_dict_missing; eassumption
  | |- getitem _ _ _ = _ => pure_step getitem; reflexivity
  | |- subscript _ _ _ = _ => unfold subscript; run_err
  | |- Notebook.call_name _ _ _ _ _ = _ => unfold Notebook.call_name; run_err
  | |- Notebook.call_method _ _ _ _ _ _ = _ => unfold Notebook.call_method; run_err
  | |- call_def _ _ _ = _ => cbn [call_def]; run_err
  | |- for_in _ _ _ _ = _ => cbn [for_in]; run_err
  | |- for_each ?x ?l ?b ?s = ?rhs =>
      let l' := eval cbv in l in
      change (for_each x l' b s = rhs); progress cbn [for_each]; run_err
  | |- Notebook.get_repo_path _ _ = _ => unfold Notebook.get_repo_path; run_err
  end.

(** Puts an arbitrary kernel state in the form the steps expect. *)
(** Puts an arbitrary kernel state in the form the steps expect. *)
Ltac open_state s :=
  destruct s as [g t]; cbn [globals trace] in *.

Ltac start :=
  lazymatch goal with
  | |- _ (State _ ?t) = _ => rewrite <- (app_nil_r t) at 1
  end.

Ltac fresh_events :=
  unfold new_events; cbn [trace]; rewrite skipn_length_app.


(** *** get_repo_path *)

(** X2: in a kernel where [Path] is not bound, [get_repo_path] raises
    [NameError: Path]. *)
Lemma get_repo_path_needs_import (w : world) (s : state) :
  globals s !! "Path" = None ->
  Notebook.get_repo_path w s = Err "NameError: Path".
Proof. intros HP. open_state s. start. run_err. Qed.

Lemma get_repo_path_needs_import_witness :
  Notebook.get_repo_path Sample.world0 initial = Err "NameError: Path".
Proof. apply (get_repo_path_needs_import Sample.world0 initial). reflexivity. Defined.

(** X3: when resolving [cwd/generate_data.ipynb] changes nothing (no
    symbolic link on the way), [get_repo_path] returns the parent of the
    working directory, whatever that directory is: the repository root
    only if the kernel runs in a directory directly below it, and the
    root of the file system if it runs there. *)
Lemma get_repo_path_parent_of_cwd (w : world) (s : state) :
  globals s !! "Path" = Some (VGlobal "pathlib" "Path") ->
  absolute (cwd w) = true ->
  realpath w (join (cwd w) (parse_path "generate_data.ipynb"))
    = join (cwd w) (parse_path "generate_data.ipynb") ->
  exists s', Notebook.get_repo_path w s = Ok (VPath (parent (cwd w))) s'.
Proof.
  intros HP Habs Hreal. open_state s.
  rewrite <- (repo_root_parent_of_cwd w Habs Hreal).
  eexists. start. run.
Qed.

Lemma get_repo_path_parent_of_cwd_witness :
  exists s', Notebook.get_repo_path root_world imported = Ok (VPath (Path true [])) s'.
Proof.
  apply (get_repo_path_parent_of_cwd root_world imported); reflexivity.
Defined.

(** *** The weights cell *)

(** X5: when resolving [cwd/generate_data.ipynb] changes nothing, the
    data file is looked for in [generated_datasets] next to the working
    directory, that is below the parent of the working directory. *)
Lemma cell_weights_beside_cwd (w : world) (s : state) :
  globals s !! "Path" = Some (VGlobal "pathlib" "Path") ->
  globals s !! "chemical_map_weights"
    = Some (VGlobal "espm.weights.generate_weights" "chemical_map_weights") ->
  absolute (cwd w) = true ->
  realpath w (join (cwd w) (parse_path "generate_data.ipynb"))
    = join (cwd w) (parse_path "generate_data.ipynb") ->
  exists s',
    Notebook.cell_weights w s = Ok tt s'
    /\ globals s' !! "path"
       = Some (VPath (Path true (removelast (parts (cwd w))
                                 ++ ["generated_datasets";
                                     "71GPa_experimental_data.hspy"]))).
Proof.
  intros HP Hc Habs Hreal. open_state s.
  rewrite <- (experimental_data_beside_cwd w Habs Hreal).
  eexists. split.
  - start. unfold Notebook.cell_weights. run.
  - cbn [globals]. lookup.
Qed.

Lemma cell_weights_beside_cwd_witness :
  exists s',
    Notebook.cell_weights root_world imported = Ok tt s'
    /\ globals s' !! "path"
       = Some (VPath (Path true ["generated_datasets";
                                 "71GPa_experimental_data.hspy"])).
Proof.
  apply (cell_weights_beside_cwd root_world imported); reflexivity.
Defined.

(** *** The parameters cell *)

(** X6: the parameters cell completes in any kernel, also before the
    imports; it records four bindings, of the four configuration names in
    the order of the source, and leaves every other name of the kernel as
    it was. *)
Lemma cell_parameters_frame (s : state) (y : string) :
  is_config y = false ->
  exists s',
    Notebook.cell_parameters s = Ok tt s'
    /\ globals s' !! y = globals s !! y
    /\ map fst (config_stores (new_events s s')) = config_names
    /\ length (new_events s s') = 4.
Proof.
  intros Hy. open_state s. eexists. split; [|split; [|split]].
  - start. unfold Notebook.cell_parameters. run.
  - cbn [globals].
    unfold is_config, config_names in Hy. cbn [existsb] in Hy.
    repeat (apply orb_false_elim in Hy as [? Hy]).
    repeat match goal with
           | H : String.eqb _ _ = false |- _ => apply String.eqb_neq in H
           end.
    rewrite !lookup_insert_ne by congruence. reflexivity.
  - fresh_events. reflexivity.
  - fresh_events. reflexivity.
Qed.

Lemma cell_parameters_frame_witness :
  exists s',
    Notebook.cell_parameters imported = Ok tt s'
    /\ globals s' !! "Path" = globals imported !! "Path"
    /\ map fst (config_stores (new_events imported s')) = config_names
    /\ length (new_events imported s') = 4.
Proof. apply (cell_parameters_frame imported "Path"). reflexivity. Defined.

(** X7: running the parameters cell a second time changes no binding of
    the kernel. *)
Lemma cell_parameters_idempotent (s : state) :
  exists s1 s2,
    Notebook.cell_parameters s = Ok tt s1
    /\ Notebook.cell_parameters s1 = Ok tt s2
    /\ globals s2 = globals s1.
Proof.
  open_state s. do 2 eexists. split; [|split].
  - start. unfold Notebook.cell_parameters. run.
  - rewrite <- (app_nil_r (t ++ _)) at 1. unfold Notebook.cell_parameters. run.
  - cbn [globals]. apply map_eq. intros i.
    rewrite !lookup_insert. repeat case_decide; reflexivity.
Qed.

(** *** The phases cell *)

(** X8: whatever values [elts_dicts], [brstlg_pars] and [model_params]
    are bound to when the phases cell starts, its first call is
    [generate_modular_phases], which receives exactly these values by
    keyword, always with [scales = [1, 1, 1]] and [seed = 42]. *)
Lemma cell_phases_first_call (w : world) (s : state) (e b m : pyval) :
  globals s !! "generate_modular_phases"
    = Some (VGlobal "espm.models.generate_EDXS_phases" "generate_modular_phases") ->
  globals s !! "elts_list_from_dict_list"
    = Some (VGlobal "espm.models.EDXS_function" "elts_list_from_dict_list") ->
  globals s !! "elts_dicts" = Some e ->
  globals s !! "brstlg_pars" = Some b ->
  globals s !! "model_params" = Some m ->
  exists s',
    Notebook.cell_phases w s = Ok tt s'
    /\ nth_error (new_events s s') 0
       = Some (ECall (VGlobal "espm.models.generate_EDXS_phases"
                              "generate_modular_phases")
                     []
                     [("elts_dicts", e); ("brstlg_pars", b);
                      ("scales", VList [VInt 1; VInt 1; VInt 1]);
                      ("model_params", m); ("seed", VInt 42)]).
Proof.
  intros Hg Hl He Hb Hm. open_state s. eexists. split.
  - start. unfold Notebook.cell_phases. run.
  - fresh_events. reflexivity.
Qed.

Lemma cell_phases_first_call_witness :
  exists s',
    Notebook.cell_phases Sample.world0 configured = Ok tt s'
    /\ nth_error (new_events configured s') 0
       = Some (ECall (VGlobal "espm.models.generate_EDXS_phases"
                              "generate_modular_phases")
                     []
                     [("elts_dicts", Notebook.elts_dicts);
                      ("brstlg_pars", Notebook.brstlg_pars);
                      ("scales", VList [VInt 1; VInt 1; VInt 1]);
                      ("model_params", Notebook.model_params);
                      ("seed", VInt 42)]).
Proof.
  apply (cell_phases_first_call Sample.world0 configured); reflexivity.
Defined.

(** X9: run before the parameters cell, the phases cell raises
    [NameError: elts_dicts] and calls nothing. *)
Lemma cell_phases_before_parameters (w : world) (s : state) :
  globals s !! "generate_modular_phases"
    = Some (VGlobal "espm.models.generate_EDXS_phases" "generate_modular_phases") ->
  globals s !! "elts_dicts" = None ->
  Notebook.cell_phases w s = Err "NameError: elts_dicts".
Proof.
  intros Hg He. open_state s. start. unfold Notebook.cell_phases. run_err.
Qed.

Lemma cell_phases_before_parameters_witness :
  Notebook.cell_phases Sample.world0 imported = Err "NameError: elts_dicts".
Proof.
  apply (cell_phases_before_parameters Sample.world0 imported); reflexivity.
Defined.

(** *** The last cell *)

Lemma cell_generate_passes_seed_witness :
  Notebook.cell_generate Sample.world0 (prepared Sample.world0)
  = Ok tt (State (globals (prepared Sample.world0))
                 (trace (prepared Sample.world0)
                    ++ [ESubscript "data_dict" (VStr "seed")]
                    ++ [ECall (VGlobal "espm.datasets.base" "generate_dataset") []
                          [("phases", VObj 63);
                           ("weights", VObj 18);
                           ("model_params", Notebook.model_params);
                           ("misc_params", Notebook.data_dict);
                           ("base_seed", VInt 42);
                           ("sample_number", VInt 1);
                           ("elements", VObj 65)]])).
Proof.
  apply (cell_generate_passes_seed Sample.world0 (prepared Sample.world0)
           (VObj 63) (VObj 18) Notebook.model_params (VObj 65) (VInt 42));
    reflexivity.
Defined.

(** X11: if [data_dict] has no ["seed"] item, the last cell raises
    [KeyError: seed] before [generate_dataset] is called. *)
Lemma cell_generate_missing_seed (w : world) (s : state)
    (phases weights params : pyval) (kvs : list (string * pyval)) :
  globals s !! "generate_dataset"
    = Some (VGlobal "espm.datasets.base" "generate_dataset") ->
  globals s !! "phases" = Some phases ->
  globals s !! "weights" = Some weights ->
  globals s !! "model_params" = Some params ->
  globals s !! "data_dict" = Some (VDict kvs) ->
  assoc "seed" kvs = None ->
  Notebook.cell_generate w s = Err "KeyError: seed".
Proof.
  intros Hf Hp Hw Hm Hd Hs. open_state s. start.
  unfold Notebook.cell_generate. run_err.
Qed.

Lemma cell_generate_missing_seed_witness :
  Notebook.cell_generate Sample.world0 (unseeded Sample.world0)
  = Err "KeyError: seed".
Proof.
  apply (cell_generate_missing_seed Sample.world0 (unseeded Sample.world0)
           (VObj 63) (VObj 18) Notebook.model_params [("N", VInt 100)]);
    reflexivity.
Defined.

(** *** The plotting cells *)



End CellProperties.

(** ** Consistency of the metadata *)

Section Metadata.
Import Common Toml Meta.

(** X15: the package list is closed under taking the parent package:
    the package containing a listed dotted package is listed too. *)
Lemma packages_closed_under_parent (p q : string) :
  In p (packages pyproject) -> parent_package p = Some q ->
  In q (packages pyproject).
Proof.
  intros Hin Hq.
  cbv [packages lookup find_table find pyproject header path_eqb] in Hin.
  simpl in Hin.
  repeat (destruct Hin as [<-|Hin];
          [vm_compute in Hq; first [discriminate | injection Hq as <-; now left]|]).
  contradiction.
Qed.

Lemma packages_closed_under_parent_witness :
  In "espm.models" (packages pyproject)
  /\ parent_package "espm.models" = Some "espm"
  /\ In "espm" (packages pyproject).
Proof.
  assert (Hin : In "espm.models" (packages pyproject)).
  { apply (nth_error_In _ 3). reflexivity. }
  split; [exact Hin|]. split; [reflexivity|].
  apply (packages_closed_under_parent "espm.models" "espm" Hin). reflexivity.
Defined.

(** X16: every Python version named by a classifier satisfies
    [requires-python]; versions compare by components, so that 3.10 is
    above 3.8. *)
Lemma classifiers_satisfy_requires_python (c spec : string) (v : list nat) :
  In c (classifiers pyproject) ->
  python_version c = Some v ->
  requires_python pyproject = Some spec ->
  satisfies spec v = Some true.
Proof.
  intros Hin Hv Hs. vm_compute in Hs. injection Hs as <-.
  cbv [classifiers lookup find_table find pyproject header path_eqb] in Hin.
  simpl in Hin.
  repeat (destruct Hin as [<-|Hin];
          [vm_compute in Hv; first [discriminate | injection Hv as <-; reflexivity]|]).
  contradiction.
Qed.

Lemma classifiers_satisfy_requires_python_witness :
  In "Programming Language :: Python :: 3.10" (classifiers pyproject)
  /\ python_version "Programming Language :: Python :: 3.10" = Some [3; 10]
  /\ requires_python pyproject = Some ">=3.8"
  /\ satisfies ">=3.8" [3; 10] = Some true.
Proof.
  assert (Hin : In "Programming Language :: Python :: 3.10" (classifiers pyproject)).
  { apply (nth_error_In _ 9). reflexivity. }
  split; [exact Hin|]. split; [reflexivity|]. split; [reflexivity|].
  apply (classifiers_satisfy_requires_python _ ">=3.8" [3; 10] Hin); reflexivity.
Defined.

(** X17: every entry of the build requirements, the dependencies and the
    [dev] extra has the plain form of a requirement: a name of letters,
    digits, [.], [_] and [-] with a letter or digit at both ends, alone or
    followed by one comparison operator and a dotted numeric version.
    Within each of the three lists no distribution is named twice, names
    being compared in lower case with [-], [_] and [.] identified. *)
Lemma requirement_lists_well_formed :
  Forall (fun d => well_formed d = true)
         (build_requires pyproject ++ dependencies pyproject
          ++ dev_dependencies pyproject)
  /\ List.NoDup (map normalized_name (build_requires pyproject))
  /\ List.NoDup (map normalized_name (dependencies pyproject))
  /\ List.NoDup (map normalized_name (dev_dependencies pyproject)).
Proof.
  split; [|split; [|split]].
  - apply List.Forall_forall. intros d Hd.
    assert (H : forallb well_formed
                        (build_requires pyproject ++ dependencies pyproject
                         ++ dev_dependencies pyproject) = true)
      by (vm_compute; reflexivity).
    rewrite forallb_forall in H. exact (H d Hd).
  - apply NoDup_ListNoDup, (bool_decide_unpack _). vm_compute. reflexivity.
  - apply NoDup_ListNoDup, (bool_decide_unpack _). vm_compute. reflexivity.
  - apply NoDup_ListNoDup, (bool_decide_unpack _). vm_compute. reflexivity.
Qed.

(** The strict reading refuses what the lenient parser lets through. *)
Lemma well_formed_refuses :
  map well_formed ["wheel>="; "pkg==???"; "-._"; "a==1..2"]
  = [false; false; false; false]
  /\ map normalized_name ["Scikit_Learn"; "scikit-learn"; "scikit.learn==1.0"]
     = [Some "scikit-learn"; Some "scikit-learn"; Some "scikit-learn"].
Proof. split; vm_compute; reflexivity. Qed.

End Metadata.
